(** * The IPU3 AIQ wrapper (src/ipa/ipu3/aiq.cpp)

    A shallow embedding of the calibration loader [AIQBinaryData] and of the
    engine session [AIQ], and the properties of the two that the
    specification states.

    The wrapper is glue code: everything it calls lives outside of aiq.cpp.
    The file system ([File]), the Intel imaging engine ([ia_aiq_*]), the
    parameter encoder and the allocator behind [std::vector] are therefore
    interfaces here; the functions of aiq.cpp are written once over these
    interfaces, in a state monad over a [World] that records every call that
    leaves the wrapper, in order. *)

From Stdlib Require Import ZArith List String Bool Lia.
From Stdlib Require Import Init.Byte.
Import ListNotations.
Local Open Scope Z_scope.

(** ** Integers, pointers and error numbers *)

(** errno values of Linux (asm-generic/errno-base.h, asm-generic/errno.h). *)
Definition ENOENT : Z := 2.
Definition EINVAL : Z := 22.
Definition ENODATA : Z := 61.

(** A pointer is an address; the null pointer is address 0. *)
Definition ptr : Type := Z.
Definition nullptr : ptr := 0.

(** Conversion to a 32-bit [int], as in [int bytesRead = binary.read(data_)]
    where the right-hand side is an [ssize_t]. *)
Definition to_int (z : Z) : Z := (z + 2 ^ 31) mod 2 ^ 32 - 2 ^ 31.

(** Modelled from the spec: [ia_binary_data] is declared in the engine's
    headers, which are not part of aiq.cpp; the data model gives a view as a
    pointer and a size that is an integer >= 0. *)
Record ia_binary_data : Type := {
  data : ptr;
  size : Z
}.

(** ** std::vector<uint8_t>

    A vector owns a storage block at [v_base] able to hold [v_cap] elements,
    of which [v_elems] are in use. *)
Record vector : Type := {
  v_base : ptr;
  v_cap : nat;
  v_elems : list byte
}.

Definition vector_empty : vector :=
  {| v_base := nullptr; v_cap := 0%nat; v_elems := [] |}.

(** [data_.data()] *)
Definition vector_data (v : vector) : ptr := v_base v.

(** The elements after [resize(n)]: the first [n] old ones, then zeros. *)
Definition resized (n : nat) (l : list byte) : list byte :=
  firstn n l ++ repeat x00 (n - List.length l).

(** Storing [bytes] at the front of a span over [l]; a span cannot grow. *)
Definition span_store (bytes l : list byte) : list byte :=
  let b := firstn (List.length l) bytes in
  b ++ skipn (List.length b) l.

(** ** Interfaces of the collaborators *)

(** The allocator behind the vector: [allocate n] hands out a block for [n]
    elements; [growth c n] is the capacity chosen when a vector of capacity
    [c] has to hold [n > c] elements. *)
Class Allocator (H : Type) : Type := {
  allocate : nat -> H -> ptr * H;
  growth : nat -> nat -> nat
}.

(** The imaging engine (ia_aiq.h).  [E] is the engine's internal state, [P]
    the type [ia_aiq_statistics_input_params].  [ia_aiq_init] returns the
    handle, null on failure; [ia_aiq_statistics_set] returns an [ia_err],
    0 being [ia_err_none]. *)
Class Engine (E P : Type) : Type := {
  ia_aiq_init :
    ia_binary_data -> ia_binary_data -> ia_binary_data ->
    Z -> Z -> Z -> ptr -> ptr -> E -> ptr * E;
  ia_aiq_statistics_set : ptr -> P -> E -> Z * E;
  ia_aiq_deinit : ptr -> E -> E;
  ia_err_decode : Z -> string;
  (** the value of [ia_aiq_statistics_input_params stats_param = {}] *)
  value_initialized : P
}.

(** Modelled from the spec: [ParameterEncoder::encode] (parameter_encoder.h)
    is not part of aiq.cpp.  The spec describes it as a pure transform, a
    translation table from the tuning decision to the firmware buffer, in
    which identical tuning-decision input always yields identical
    parameter-buffer bytes. *)
Class ParameterEncoder (C B : Type) : Type := {
  translation : C -> B
}.

(** What a [File] (libcamera/internal/file.h) answers for one name:
    [exists()], [open(File::ReadOnly)], [size()] (negative on failure) and
    [read(span)], which for a span of the given length returns the
    [ssize_t] result and the bytes it stored at the front of the span. *)
Record File : Type := {
  file_exists : bool;
  file_open : bool;
  file_size : Z;
  file_read : nat -> Z * list byte
}.

(** The four ways in which [load] fails, and the one in which it succeeds,
    told apart by what the file answers. *)
Inductive load_case (f : File) : Type :=
| NotThere : file_exists f = false -> load_case f
| NotOpened : file_exists f = true -> file_open f = false -> load_case f
| NoSize :
    file_exists f = true -> file_open f = true -> file_size f < 0 ->
    load_case f
| ShortRead :
    file_exists f = true -> file_open f = true -> 0 <= file_size f ->
    to_int (fst (file_read f (Z.to_nat (file_size f)))) <> file_size f ->
    load_case f
| FullRead :
    file_exists f = true -> file_open f = true -> 0 <= file_size f ->
    to_int (fst (file_read f (Z.to_nat (file_size f)))) = file_size f ->
    load_case f.

Inductive Severity : Type := Debug | Info | Error.

Section Model.

Context {H E P C B S3A : Type}.
Context {alloc : Allocator H} {eng : Engine E P}
  {enc : ParameterEncoder C B}.

(** [P] is [ia_aiq_statistics_input_params], [C] is [aic_config], [B] is
    [ipu3_uapi_params] and [S3A] is [ipu3_uapi_stats_3a]. *)

(** ** The world around the wrapper *)

(** Every call that leaves aiq.cpp, with its arguments. *)
Inductive Event : Type :=
| Log (sev : Severity) (msg : string)
| FileExists (name : string)
| FileOpen (name : string)
| FileSize (name : string)
| FileRead (name : string) (len : nat)
| AiqInit (aiqb nvm aiqd : ia_binary_data) (w h n : Z) (cmc mkn : ptr)
| AiqStatisticsSet (aiq : ptr) (param : P)
| AiqDeinit (aiq : ptr).

Record World : Type := {
  fs : string -> File;
  heap : H;
  engine : E;
  trace : list Event
}.

Definition M (A : Type) : Type := World -> A * World.

Definition ret {A : Type} (a : A) : M A := fun w => (a, w).

Definition bind {A A' : Type} (m : M A) (k : A -> M A') : M A' :=
  fun w => let (a, w') := m w in k a w'.

Notation "x <- m ;; k" := (bind m (fun x => k))
  (at level 61, m at next level, right associativity).
Notation "m ;; k" := (bind m (fun _ => k))
  (at level 61, right associativity).

Definition emit (e : Event) : M unit :=
  fun w => (tt, {| fs := fs w; heap := heap w; engine := engine w;
                   trace := trace w ++ [e] |}).

(** [LOG(AIQ, sev) << msg] *)
Definition LOG (sev : Severity) (msg : string) : M unit := emit (Log sev msg).

Definition File_exists (name : string) : M bool :=
  emit (FileExists name) ;; fun w => (file_exists (fs w name), w).

Definition File_open (name : string) : M bool :=
  emit (FileOpen name) ;; fun w => (file_open (fs w name), w).

Definition File_size (name : string) : M Z :=
  emit (FileSize name) ;; fun w => (file_size (fs w name), w).

(** [binary.read(data_)]: the span covers the elements of the vector. *)
Definition File_read (name : string) (v : vector) : M (Z * vector) :=
  emit (FileRead name (List.length (v_elems v))) ;;
  fun w =>
    let (r, bytes) := file_read (fs w name) (List.length (v_elems v)) in
    ((r, {| v_base := v_base v; v_cap := v_cap v;
            v_elems := span_store bytes (v_elems v) |}), w).

(** [v.resize(n)]: the storage is kept when it is large enough, and
    replaced by a new block otherwise.  Allocation is taken to succeed. *)
Definition vector_resize (v : vector) (n : nat) : M vector :=
  fun w =>
    if (n <=? v_cap v)%nat then
      ({| v_base := v_base v; v_cap := v_cap v;
          v_elems := resized n (v_elems v) |}, w)
    else
      let c := growth (v_cap v) n in
      let (p, h') := allocate c (heap w) in
      ({| v_base := p; v_cap := c; v_elems := resized n (v_elems v) |},
       {| fs := fs w; heap := h'; engine := engine w; trace := trace w |}).

Definition call_ia_aiq_init (aiqb nvm aiqd : ia_binary_data) (w_ h_ n_ : Z)
    (cmc mkn : ptr) : M ptr :=
  emit (AiqInit aiqb nvm aiqd w_ h_ n_ cmc mkn) ;;
  fun w =>
    let (a, e') := ia_aiq_init aiqb nvm aiqd w_ h_ n_ cmc mkn (engine w) in
    (a, {| fs := fs w; heap := heap w; engine := e'; trace := trace w |}).

Definition call_ia_aiq_statistics_set (aiq : ptr) (param : P) : M Z :=
  emit (AiqStatisticsSet aiq param) ;;
  fun w =>
    let (err, e') := ia_aiq_statistics_set aiq param (engine w) in
    (err, {| fs := fs w; heap := heap w; engine := e'; trace := trace w |}).

Definition call_ia_aiq_deinit (aiq : ptr) : M unit :=
  emit (AiqDeinit aiq) ;;
  fun w =>
    (tt, {| fs := fs w; heap := heap w;
            engine := ia_aiq_deinit aiq (engine w); trace := trace w |}).

(** ** AIQBinaryData *)

Record AIQBinaryData : Type := {
  iaBinaryData_ : ia_binary_data;
  data_ : vector
}.

(** [AIQBinaryData::AIQBinaryData()] *)
Definition AIQBinaryData_new : AIQBinaryData :=
  {| iaBinaryData_ := {| data := nullptr; size := 0 |};
     data_ := vector_empty |}.

(** [AIQBinaryData::data()]: the view as the callee reads it through the
    returned pointer. *)
Definition AIQBinaryData_data (self : AIQBinaryData) : ia_binary_data :=
  iaBinaryData_ self.

Definition with_data_ (self : AIQBinaryData) (v : vector) : AIQBinaryData :=
  {| iaBinaryData_ := iaBinaryData_ self; data_ := v |}.

(** [AIQBinaryData::load(filename)]: the return value and the object after
    the call. *)
Definition load (self : AIQBinaryData) (filename : string)
    : M (Z * AIQBinaryData) :=
  found <- File_exists filename ;;
  if negb found then
    LOG Error ("Failed to find file: " ++ filename)%string ;;
    ret (- ENOENT, self)
  else
    opened <- File_open filename ;;
    if negb opened then
      LOG Error ("Failed to open: " ++ filename)%string ;;
      ret (- EINVAL, self)
    else
      fileSize <- File_size filename ;;
      if fileSize <? 0 then
        LOG Error ("Failed to determine fileSize: " ++ filename)%string ;;
        ret (- ENODATA, self)
      else
        v <- vector_resize (data_ self) (Z.to_nat fileSize) ;;
        rv <- File_read filename v ;;
        let bytesRead := to_int (fst rv) in
        if negb (bytesRead =? fileSize) then
          LOG Error ("Failed to read file: " ++ filename)%string ;;
          ret (- EINVAL, with_data_ self (snd rv))
        else
          LOG Info ("Successfully loaded: " ++ filename)%string ;;
          ret (0, {| iaBinaryData_ :=
                       {| data := vector_data (snd rv); size := fileSize |};
                     data_ := snd rv |}).

(** ** AIQ *)

(** The session object.  [aiq_] is the engine handle (declared in aiq.h). *)
Record AIQ : Type := {
  aiq_ : ptr
}.

(** [AIQ::AIQ()].  The constructor does not initialise [aiq_]; [aiq0] is
    whatever the member holds when the object comes to life. *)
Definition AIQ_new (aiq0 : ptr) : M AIQ :=
  LOG Info "Creating IA AIQ Wrapper" ;;
  ret {| aiq_ := aiq0 |}.

(** [AIQ::~AIQ()] *)
Definition AIQ_destructor (self : AIQ) : M unit :=
  LOG Info "Destroying IA AIQ Wrapper" ;;
  call_ia_aiq_deinit (aiq_ self).

Definition aiqb_path : string := "/etc/camera/ipu3/00imx258.aiqb".

(** [AIQ::init()]: the return value and the session after the call.  The
    three loaders are locals of the call. *)
Definition init (self : AIQ) : M (Z * AIQ) :=
  let aiqb := AIQBinaryData_new in
  let nvm := AIQBinaryData_new in
  let aiqd := AIQBinaryData_new in
  let stats_max_width := 1920 in
  let stats_max_height := 1080 in
  let max_num_stats_in := 4 in
  let ia_cmc := nullptr in
  let ia_mkn := nullptr in
  r <- load aiqb aiqb_path ;;
  let aiqb := snd r in
  (if negb (fst r =? 0) then LOG Error "Not quitting" else ret tt) ;;
  aiq <- call_ia_aiq_init (AIQBinaryData_data aiqb) (AIQBinaryData_data nvm)
           (AIQBinaryData_data aiqd)
           stats_max_width stats_max_height max_num_stats_in
           ia_cmc ia_mkn ;;
  let self := {| aiq_ := aiq |} in
  if aiq =? nullptr then
    LOG Error "Failed to initialise aiq library" ;;
    ret (- ENODATA, self)
  else
    ret (0, self).

(** [AIQ::configure()] *)
Definition configure (self : AIQ) : M Z :=
  LOG Debug "Configure AIQ" ;;
  ret 0.

(** [AIQ::setStatistics(frame, stats)] *)
Definition setStatistics (self : AIQ) (frame : Z) (stats : S3A) : M Z :=
  LOG Debug "Set Statistitcs" ;;
  let stats_param := value_initialized in
  err <- call_ia_aiq_statistics_set (aiq_ self) stats_param ;;
  (if negb (err =? 0) then
     LOG Error ("Failed to set statistics: " ++ ia_err_decode err)%string ;;
     LOG Error "Not quitting"
   else ret tt) ;;
  ret 0.

(** Modelled from the spec: [ParameterEncoder::encode(&config, params)]
    renders the tuning decision into the caller's buffer; the bytes of the
    buffer after the call are those the translation gives for [config]. *)
Definition ParameterEncoder_encode (config : C) (params : B) : B :=
  translation config.

(** [AIQ::run(frame, params)]: the return value and the parameter buffer
    after the call.  [config] is the local [aic_config config;] of line
    159, which run declares without an initialiser, never fills from the
    engine and hands to the encoder as it is.  Its contents are
    indeterminate: they are no argument of the C++ method and no caller
    chooses them.  The model makes them an argument so that what run does
    with them can be stated. *)
Definition run (self : AIQ) (frame : Z) (config : C) (params : B)
    : M (Z * B) :=
  ret (0, ParameterEncoder_encode config params).

(** ** Reading a trace *)

(** The names whose loading was attempted: every [load] starts with exactly
    one [exists()] on the file it is given. *)
Fixpoint load_attempts (tr : list Event) : list string :=
  match tr with
  | [] => []
  | FileExists name :: tr' => name :: load_attempts tr'
  | _ :: tr' => load_attempts tr'
  end.

(** The calls made to the engine, in order. *)
Fixpoint engine_calls (tr : list Event) : list Event :=
  match tr with
  | [] => []
  | AiqInit a b c w h n cmc mkn :: tr' =>
      AiqInit a b c w h n cmc mkn :: engine_calls tr'
  | AiqStatisticsSet a p :: tr' => AiqStatisticsSet a p :: engine_calls tr'
  | AiqDeinit a :: tr' => AiqDeinit a :: engine_calls tr'
  | _ :: tr' => engine_calls tr'
  end.

(** The view of a loader that never loaded anything. *)
Definition null_view : ia_binary_data := {| data := nullptr; size := 0 |}.

(** The view of a loader describes the buffer the loader owns. *)
Definition view_of_buffer (self : AIQBinaryData) : Prop :=
  data (iaBinaryData_ self) = vector_data (data_ self) /\
  size (iaBinaryData_ self) = Z.of_nat (List.length (v_elems (data_ self))).

End Model.

(** ** Reading the result of a call *)

(** The return code, the object after the call and the world after the
    call, for a method that returns a code and updates its object. *)
Definition retcode {A W : Type} (r : (Z * A) * W) : Z := fst (fst r).
Definition object_after {A W : Type} (r : (Z * A) * W) : A := snd (fst r).
Definition world_after {A W : Type} (r : A * W) : W := snd r.

(** ** A stub platform

    A deterministic stand-in for the collaborators, to run the wrapper on
    concrete inputs: a bump allocator, an engine whose answers are scripted
    in its state, and files described by their contents. *)
Module Stub.

#[global] Instance bump_allocator : Allocator Z := {|
  allocate n h := (h, h + Z.max 1 (Z.of_nat n));
  growth c n := Nat.max n (2 * c)
|}.

(** The engine answers [ia_aiq_init] with [create_handle] and the
    successive [ia_aiq_statistics_set] calls with the codes of
    [stat_errors], then with 0. *)
Record engine_state : Type := {
  create_handle : ptr;
  stat_errors : list Z
}.

#[global] Instance scripted_engine : Engine engine_state Z := {|
  ia_aiq_init _ _ _ _ _ _ _ _ e := (create_handle e, e);
  ia_aiq_statistics_set _ _ e :=
    match stat_errors e with
    | [] => (0, e)
    | err :: rest =>
        (err, {| create_handle := create_handle e; stat_errors := rest |})
    end;
  ia_aiq_deinit _ e := e;
  ia_err_decode _ := "ia_err"%string;
  value_initialized := 0
|}.

#[global] Instance unary_encoder : ParameterEncoder Z (list byte) := {|
  translation c := repeat x01 (Z.to_nat c)
|}.

(** A file that is not there. *)
Definition missing : File := {|
  file_exists := false;
  file_open := false;
  file_size := - EINVAL;
  file_read _ := (- EINVAL, [])
|}.

(** A file that is there but cannot be opened. *)
Definition unreadable : File := {|
  file_exists := true;
  file_open := false;
  file_size := - EINVAL;
  file_read _ := (- EINVAL, [])
|}.

(** A file that opens but whose size cannot be determined. *)
Definition unsized : File := {|
  file_exists := true;
  file_open := true;
  file_size := - 1;
  file_read _ := (0, [])
|}.

(** A file holding [bytes] of which a read delivers at most [k]. *)
Definition delivering (k : nat) (bytes : list byte) : File := {|
  file_exists := true;
  file_open := true;
  file_size := Z.of_nat (List.length bytes);
  file_read n :=
    let got := firstn (Nat.min k n) bytes in
    (Z.of_nat (List.length got), got)
|}.

(** A file holding [bytes], read in full. *)
Definition holding (bytes : list byte) : File :=
  delivering (List.length bytes) bytes.

(** A file system with one file of each kind; every other name, the
    calibration file of [init] included, is missing. *)
Definition files (name : string) : File :=
  if String.eqb name "one" then holding [x2a]
  else if String.eqb name "four" then holding [x01; x02; x03; x04]
  else if String.eqb name "short" then delivering 2 [x01; x02; x03; x04]
  else if String.eqb name "locked" then unreadable
  else if String.eqb name "pipe" then unsized
  else missing.

(** A file system in which every name is a readable one-byte file. *)
Definition all_present (name : string) : File := holding [x2a].

Definition world (f : string -> File) (handle : ptr) (errs : list Z)
    : @World Z engine_state Z :=
  {| fs := f; heap := 4096;
     engine := {| create_handle := handle; stat_errors := errs |};
     trace := [] |}.

(** The table of files with an engine that creates handle 7 and answers
    every statistics call with 0. *)
Definition w0 : @World Z engine_state Z := world files 7 [].

(** A loader that was loaded with the one-byte file, in [w0]. *)
Definition loaded_one : (Z * AIQBinaryData) * @World Z engine_state Z :=
  load AIQBinaryData_new "one" w0.

End Stub.

(** ** More ways to read a trace *)

Section Observers.

Context {P : Type}.

(** The calls made on files, in order. *)
Fixpoint file_events (tr : list (@Event P)) : list (@Event P) :=
  match tr with
  | [] => []
  | FileExists name :: tr' => FileExists name :: file_events tr'
  | FileOpen name :: tr' => FileOpen name :: file_events tr'
  | FileSize name :: tr' => FileSize name :: file_events tr'
  | FileRead name len :: tr' => FileRead name len :: file_events tr'
  | _ :: tr' => file_events tr'
  end.

(** The entries written to the log, in order. *)
Fixpoint log_entries (tr : list (@Event P)) : list (Severity * string) :=
  match tr with
  | [] => []
  | Log sev msg :: tr' => (sev, msg) :: log_entries tr'
  | _ :: tr' => log_entries tr'
  end.

End Observers.

(** The view that [init] hands to the engine for the primary blob:
    [aiqb.data()] after [aiqb.load(...)] on a new loader. *)
Definition primary_view {H E P : Type} {alloc : Allocator H}
    (w : @World H E P) : ia_binary_data :=
  AIQBinaryData_data (object_after (load AIQBinaryData_new aiqb_path w)).

(** ** A file system with an empty file

    The name "empty" is a file of no bytes; every other name is missing. *)
Module Edge.

Definition files (name : string) : File :=
  if String.eqb name "empty" then Stub.holding []
  else Stub.missing.

Definition w0 : @World Z Stub.engine_state Z := Stub.world files 7 [].

End Edge.

(** ** An engine that numbers its handles

    Every creation returns the next handle; the other calls answer 0 and
    change nothing. *)
Module Fresh.

Record engine_state : Type := {
  next_handle : ptr
}.

#[global] Instance numbering_engine : Engine engine_state Z := {|
  ia_aiq_init _ _ _ _ _ _ _ _ e :=
    (next_handle e, {| next_handle := next_handle e + 1 |});
  ia_aiq_statistics_set _ _ e := (0, e);
  ia_aiq_deinit _ e := e;
  ia_err_decode _ := "ia_err"%string;
  value_initialized := 0
|}.

Definition w0 : @World Z engine_state Z :=
  {| fs := Stub.files; heap := 4096;
     engine := {| next_handle := 7 |}; trace := [] |}.

End Fresh.

(** * Properties *)

Section Properties.

Context {H E P C B S3A : Type}.
Context {alloc : Allocator H} {eng : Engine E P}
  {enc : ParameterEncoder C B}.

Implicit Types (w : @World H E P) (self : AIQBinaryData) (s : AIQ).
Implicit Types (filename : string).

(** ** Integers and lists *)

Lemma to_int_id (z : Z) : - 2 ^ 31 <= z < 2 ^ 31 -> to_int z = z.
Proof.
  intros Hz. unfold to_int.
  rewrite Z.mod_small by lia. lia.
Qed.

Lemma to_int_range (z : Z) : - 2 ^ 31 <= to_int z < 2 ^ 31.
Proof.
  unfold to_int.
  pose proof (Z.mod_pos_bound (z + 2 ^ 31) (2 ^ 32) ltac:(lia)). lia.
Qed.

Lemma resized_length (n : nat) (l : list byte) :
  List.length (resized n l) = n.
Proof.
  unfold resized.
  rewrite length_app, length_firstn, repeat_length. lia.
Qed.

Lemma span_store_length (bytes l : list byte) :
  List.length (span_store bytes l) = List.length l.
Proof.
  unfold span_store. cbv zeta.
  rewrite length_app, length_skipn, length_firstn. lia.
Qed.

Lemma errno_distinct :
  ENOENT <> EINVAL /\ ENOENT <> ENODATA /\ EINVAL <> ENODATA /\
  0 < ENOENT /\ 0 < EINVAL /\ 0 < ENODATA.
Proof. unfold ENOENT, EINVAL, ENODATA. lia. Qed.

(** ** The steps of [load] *)

Ltac unfold_calls :=
  unfold File_exists, File_open, File_size, File_read, vector_resize,
    call_ia_aiq_init, call_ia_aiq_statistics_set, call_ia_aiq_deinit,
    LOG, emit, bind, ret, retcode, object_after, world_after in *.

Ltac simpl_world := cbn [fs heap engine trace fst snd negb] in *.

(** [vector_resize] changes the heap only. *)
Lemma vector_resize_spec (v : vector) (n : nat) w :
  let r := vector_resize v n w in
  List.length (v_elems (fst r)) = n /\
  fs (snd r) = fs w /\ engine (snd r) = engine w /\ trace (snd r) = trace w /\
  ((n <= v_cap v)%nat -> v_base (fst r) = v_base v /\ snd r = w).
Proof.
  unfold vector_resize. cbv zeta.
  destruct (Nat.leb_spec n (v_cap v)) as [Hle | Hgt].
  - simpl_world. cbn [v_elems v_base]. rewrite resized_length.
    repeat split; auto.
  - destruct (allocate _ _) as [p h'].
    simpl_world. cbn [v_elems v_base]. rewrite resized_length.
    repeat split; auto; lia.
Qed.

Lemma load_case_of (f : File) : load_case f.
Proof.
  destruct (file_exists f) eqn:Hex; [| now apply NotThere].
  destruct (file_open f) eqn:Hop; [| now apply NotOpened].
  destruct (Z_lt_le_dec (file_size f) 0) as [Hneg | Hpos];
    [now apply NoSize |].
  destruct (Z.eq_dec (to_int (fst (file_read f (Z.to_nat (file_size f)))))
              (file_size f)) as [Heq | Hne].
  - now apply FullRead.
  - now apply ShortRead.
Qed.

Lemma load_not_there self filename w :
  file_exists (fs w filename) = false ->
  fst (load self filename w) = (- ENOENT, self) /\
  trace (snd (load self filename w)) =
    trace w ++ [FileExists filename;
                Log Error ("Failed to find file: " ++ filename)%string].
Proof.
  intros Hex. unfold load. unfold_calls. simpl_world.
  rewrite Hex. simpl_world. rewrite <- app_assoc. auto.
Qed.

Lemma load_not_opened self filename w :
  file_exists (fs w filename) = true ->
  file_open (fs w filename) = false ->
  fst (load self filename w) = (- EINVAL, self).
Proof.
  intros Hex Hop. unfold load. unfold_calls. simpl_world.
  rewrite Hex. simpl_world. rewrite Hop. reflexivity.
Qed.

Lemma load_no_size self filename w :
  file_exists (fs w filename) = true ->
  file_open (fs w filename) = true ->
  file_size (fs w filename) < 0 ->
  fst (load self filename w) = (- ENODATA, self).
Proof.
  intros Hex Hop Hsz. unfold load. unfold_calls. simpl_world.
  rewrite Hex. simpl_world. rewrite Hop. simpl_world.
  apply Z.ltb_lt in Hsz. rewrite Hsz. reflexivity.
Qed.

(** Past the size check, [load] resizes the buffer and reads into it; the
    outcome depends on the comparison alone. *)
Lemma load_read self filename w :
  file_exists (fs w filename) = true ->
  file_open (fs w filename) = true ->
  0 <= file_size (fs w filename) ->
  let f := fs w filename in
  let n := Z.to_nat (file_size f) in
  let v := fst (vector_resize (data_ self) n w) in
  let v' := {| v_base := v_base v; v_cap := v_cap v;
               v_elems := span_store (snd (file_read f n)) (v_elems v) |} in
  fst (load self filename w) =
    if to_int (fst (file_read f n)) =? file_size f
    then (0, {| iaBinaryData_ :=
                  {| data := vector_data v'; size := file_size f |};
                data_ := v' |})
    else (- EINVAL, with_data_ self v').
Proof.
  intros Hex Hop Hsz. cbv zeta.
  unfold load. unfold_calls. simpl_world.
  rewrite Hex. simpl_world. rewrite Hop. simpl_world.
  apply Z.ltb_ge in Hsz. rewrite Hsz.
  unfold vector_resize.
  destruct (_ <=? _)%nat; [| destruct (allocate _ _) as [p h']];
    simpl_world; cbn [v_elems v_base v_cap]; rewrite resized_length;
    destruct (file_read _ _) as [r bytes]; simpl_world;
    destruct (to_int r =? _); reflexivity.
Qed.

(** Every path through [load], one goal each. *)
Ltac load_paths :=
  unfold load; unfold_calls; simpl_world;
  destruct (file_exists _) eqn:?; simpl_world;
  [ destruct (file_open _) eqn:?; simpl_world;
    [ destruct (_ <? 0) eqn:?; simpl_world;
      [ | unfold vector_resize;
          destruct (_ <=? _)%nat;
          [ | destruct (allocate _ _) as [? ?] ];
          simpl_world;
          destruct (file_read _ _) as [? ?]; simpl_world;
          destruct (to_int _ =? _) eqn:?; simpl_world ]
    | ]
  | ].

(** [load] does not touch the files or the engine. *)
Lemma load_frame self filename w :
  fs (snd (load self filename w)) = fs w /\
  engine (snd (load self filename w)) = engine w.
Proof. load_paths; auto. Qed.

Lemma load_attempts_app (tr1 tr2 : list (@Event P)) :
  load_attempts (tr1 ++ tr2) = load_attempts tr1 ++ load_attempts tr2.
Proof.
  induction tr1 as [| e tr1 IH]; [reflexivity |].
  destruct e; cbn [app load_attempts]; rewrite IH; reflexivity.
Qed.

Lemma engine_calls_app (tr1 tr2 : list (@Event P)) :
  engine_calls (tr1 ++ tr2) = engine_calls tr1 ++ engine_calls tr2.
Proof.
  induction tr1 as [| e tr1 IH]; [reflexivity |].
  destruct e; cbn [app engine_calls]; rewrite IH; reflexivity.
Qed.

(** What [load] adds to the trace: one attempt, on the file it was given,
    and no call to the engine. *)
Lemma load_trace self filename w :
  exists evs,
    trace (snd (load self filename w)) = trace w ++ evs /\
    load_attempts evs = [filename] /\
    engine_calls evs = [].
Proof.
  load_paths; repeat rewrite <- app_assoc; cbn [app];
    eexists; (split; [reflexivity | split; reflexivity]).
Qed.

(** The return code of [load] is 0 or one of three error codes. *)
Lemma load_retcode self filename w :
  let rc := retcode (load self filename w) in
  rc = 0 \/ rc = - ENOENT \/ rc = - EINVAL \/ rc = - ENODATA.
Proof. cbv zeta. load_paths; auto. Qed.

(** ** The calibration loader *)

(** C3 (as amended): [load] answers a missing file with [-ENOENT], a file
    that cannot be opened with [-EINVAL], a size that cannot be determined
    with [-ENODATA] and a read of another length than the size with
    [-EINVAL]; it returns 0 on a full read only.  The three codes differ
    from each other and from 0; the second and the fourth condition share
    theirs. *)
Theorem load_error_codes self filename w :
  let f := fs w filename in
  let rc := retcode (load self filename w) in
  let bytesRead := to_int (fst (file_read f (Z.to_nat (file_size f)))) in
  (file_exists f = false -> rc = - ENOENT) /\
  (file_exists f = true -> file_open f = false -> rc = - EINVAL) /\
  (file_exists f = true -> file_open f = true -> file_size f < 0 ->
   rc = - ENODATA) /\
  (file_exists f = true -> file_open f = true -> 0 <= file_size f ->
   bytesRead <> file_size f -> rc = - EINVAL) /\
  (file_exists f = true -> file_open f = true -> 0 <= file_size f ->
   bytesRead = file_size f -> rc = 0) /\
  - ENOENT <> - EINVAL /\ - ENOENT <> - ENODATA /\ - EINVAL <> - ENODATA /\
  - ENOENT <> 0 /\ - EINVAL <> 0 /\ - ENODATA <> 0.
Proof.
  cbv zeta. unfold retcode.
  pose proof errno_distinct as Herr.
  repeat split; try lia.
  - intros Hex. now rewrite (proj1 (load_not_there self filename w Hex)).
  - intros Hex Hop. now rewrite (load_not_opened self filename w Hex Hop).
  - intros Hex Hop Hsz. now rewrite (load_no_size self filename w Hex Hop Hsz).
  - intros Hex Hop Hsz Hne.
    rewrite (load_read self filename w Hex Hop Hsz).
    apply Z.eqb_neq in Hne. now rewrite Hne.
  - intros Hex Hop Hsz Heq.
    rewrite (load_read self filename w Hex Hop Hsz).
    apply Z.eqb_eq in Heq. now rewrite Heq.
Qed.

(** C10: a new loader exposes the view {null, 0}, and a call to [load]
    that fails leaves the view of the loader as it was before the call. *)
Theorem failed_load_keeps_view self filename w :
  retcode (load self filename w) <> 0 ->
  AIQBinaryData_data AIQBinaryData_new = {| data := nullptr; size := 0 |} /\
  AIQBinaryData_data (object_after (load self filename w)) =
    AIQBinaryData_data self.
Proof.
  intros Hfail. split; [reflexivity |].
  destruct (load_case_of (fs w filename)) as [Hex | Hex Hop | Hex Hop Hsz
    | Hex Hop Hsz Hne | Hex Hop Hsz Heq]; unfold retcode, object_after in *.
  - now rewrite (proj1 (load_not_there self filename w Hex)).
  - now rewrite (load_not_opened self filename w Hex Hop).
  - now rewrite (load_no_size self filename w Hex Hop Hsz).
  - rewrite (load_read self filename w Hex Hop Hsz).
    apply Z.eqb_neq in Hne. now rewrite Hne.
  - exfalso. apply Hfail.
    rewrite (load_read self filename w Hex Hop Hsz).
    apply Z.eqb_eq in Heq. now rewrite Heq.
Qed.

(** C7 (as amended): a successful [load] records as size the number of
    bytes read as its [int bytesRead] holds it, which is the answer of
    [File::read] whenever that answer is an error or a count within the
    span; the size fits an [int], and the view describes the buffer the
    loader owns: the pointer is the buffer's and the size is the buffer's
    length.  ([data()] only reads the view; the buffer is next touched by
    the next [load] on the loader.) *)
Theorem successful_load_view self filename w :
  let f := fs w filename in
  let n := Z.to_nat (file_size f) in
  let answer := fst (file_read f n) in
  retcode (load self filename w) = 0 ->
  let self' := object_after (load self filename w) in
  size (AIQBinaryData_data self') = to_int answer /\
  (- 2 ^ 31 <= answer <= Z.of_nat n ->
   size (AIQBinaryData_data self') = answer) /\
  0 <= size (AIQBinaryData_data self') < 2 ^ 31 /\
  view_of_buffer self'.
Proof.
  cbv zeta. intros Hok.
  destruct (load_case_of (fs w filename)) as [Hex | Hex Hop | Hex Hop Hsz
    | Hex Hop Hsz Hne | Hex Hop Hsz Heq]; unfold retcode, object_after in *.
  - rewrite (proj1 (load_not_there self filename w Hex)) in Hok.
    cbn in Hok. discriminate.
  - rewrite (load_not_opened self filename w Hex Hop) in Hok.
    cbn in Hok. discriminate.
  - rewrite (load_no_size self filename w Hex Hop Hsz) in Hok.
    cbn in Hok. discriminate.
  - rewrite (load_read self filename w Hex Hop Hsz) in Hok.
    apply Z.eqb_neq in Hne. rewrite Hne in Hok. cbn in Hok. discriminate.
  - rewrite (load_read self filename w Hex Hop Hsz).
    pose proof Heq as Heqb. apply Z.eqb_eq in Heqb. rewrite Heqb.
    pose proof (to_int_range
                  (fst (file_read (fs w filename)
                          (Z.to_nat (file_size (fs w filename)))))) as Hrange.
    unfold view_of_buffer, AIQBinaryData_data.
    cbn [fst snd iaBinaryData_ data_ data size v_elems].
    rewrite span_store_length.
    rewrite (proj1 (vector_resize_spec (data_ self) _ w)).
    rewrite Z2Nat.id by lia.
    repeat split; try lia; auto.
    intros Hread. rewrite to_int_id in Heq by lia. lia.
Qed.

(** A load of a file larger than the capacity of the buffer moves the
    buffer to a new block, whether the read then comes up short or not. *)
Lemma load_reallocates self filename w :
  let n := Z.to_nat (file_size (fs w filename)) in
  file_exists (fs w filename) = true ->
  file_open (fs w filename) = true ->
  0 <= file_size (fs w filename) ->
  (v_cap (data_ self) < n)%nat ->
  vector_data (data_ (object_after (load self filename w))) =
    fst (allocate (growth (v_cap (data_ self)) n) (heap w)).
Proof.
  cbv zeta. intros Hex Hop Hsz Hcap. unfold object_after.
  rewrite (load_read self filename w Hex Hop Hsz).
  unfold vector_resize.
  apply Nat.leb_gt in Hcap. rewrite Hcap.
  destruct (allocate _ _) as [p h'].
  destruct (_ =? _); reflexivity.
Qed.

(** ** The session *)

(** [init] in one equation: the code and the handle follow from what the
    engine answers to the creation call, which receives the view of the
    one loader that was loaded and two views that never were. *)
Lemma init_spec s w :
  let loaded := load AIQBinaryData_new aiqb_path w in
  let view := AIQBinaryData_data (object_after loaded) in
  let created :=
    ia_aiq_init view null_view null_view 1920 1080 4 nullptr nullptr
      (engine w) in
  fst (init s w) =
    (if fst created =? nullptr then - ENODATA else 0,
     {| aiq_ := fst created |}) /\
  engine (snd (init s w)) = snd created /\
  exists evs,
    trace (snd (init s w)) = trace (snd loaded) ++ evs /\
    load_attempts evs = [] /\
    engine_calls evs =
      [AiqInit view null_view null_view 1920 1080 4 nullptr nullptr].
Proof.
  cbv zeta. unfold object_after.
  pose proof (load_frame AIQBinaryData_new aiqb_path w) as [_ Heng].
  unfold init. cbv zeta. unfold bind.
  destruct (load AIQBinaryData_new aiqb_path w) as [[rc aiqb] w'].
  cbn [fst snd] in *. rewrite <- Heng.
  unfold null_view, AIQBinaryData_data, AIQBinaryData_new.
  cbn [iaBinaryData_].
  destruct (negb (rc =? 0)); unfold_calls; simpl_world;
    destruct (ia_aiq_init _ _ _ _ _ _ _ _ _) as [a e']; simpl_world;
    destruct (a =? nullptr); simpl_world;
    repeat rewrite <- app_assoc; cbn [app];
    (split; [reflexivity | split; [reflexivity |]]);
    eexists; (split; [reflexivity | split; reflexivity]).
Qed.

(** C1: [load] answers every name that does not exist with [-ENOENT]; and
    when that name is the calibration file of [init] and the engine creates
    a handle from three null views, [init] returns 0 with that handle. *)
Theorem missing_calibration_is_not_fatal self s filename w :
  file_exists (fs w filename) = false ->
  retcode (load self filename w) = - ENOENT /\
  (filename = aiqb_path ->
   fst (ia_aiq_init null_view null_view null_view 1920 1080 4
          nullptr nullptr (engine w)) <> nullptr ->
   retcode (init s w) = 0 /\
   aiq_ (object_after (init s w)) <> nullptr).
Proof.
  intros Hex. unfold retcode, object_after. split.
  - now rewrite (proj1 (load_not_there self filename w Hex)).
  - intros -> Hcreate.
    destruct (init_spec s w) as (Hinit & _). cbv zeta in Hinit.
    unfold object_after in Hinit.
    rewrite (proj1 (load_not_there AIQBinaryData_new aiqb_path w Hex))
      in Hinit.
    unfold AIQBinaryData_data, AIQBinaryData_new in Hinit.
    cbn [fst snd iaBinaryData_] in Hinit.
    fold null_view in Hinit. rewrite Hinit. cbn [fst snd aiq_].
    apply Z.eqb_neq in Hcreate. rewrite Hcreate.
    apply Z.eqb_neq in Hcreate. auto.
Qed.

(** C2: when the engine answers the creation call of [init] with a null
    handle, [init] returns [-ENODATA], which is not 0, and the session
    holds the null handle; the outcome of the load plays no part. *)
Theorem engine_creation_failure_is_fatal s w :
  fst (ia_aiq_init
         (AIQBinaryData_data
            (object_after (load AIQBinaryData_new aiqb_path w)))
         null_view null_view 1920 1080 4 nullptr nullptr (engine w))
    = nullptr ->
  retcode (init s w) = - ENODATA /\
  retcode (init s w) <> 0 /\
  aiq_ (object_after (init s w)) = nullptr.
Proof.
  intros Hnull.
  destruct (init_spec s w) as (Hinit & _). cbv zeta in Hinit.
  unfold retcode, object_after in *. rewrite Hinit. cbn [fst snd aiq_].
  rewrite Hnull. cbn. unfold ENODATA. repeat split; lia.
Qed.

(** C9 (as amended): [init] attempts one load, that of the primary
    calibration file, and then calls the creation entry point once, with the
    view of that loader, the views of two loaders that were never loaded
    ({null, 0} each), the geometry 1920, 1080 and 4, and two null context
    pointers. *)
Theorem init_loads_primary_blob_only s w :
  let view :=
    AIQBinaryData_data (object_after (load AIQBinaryData_new aiqb_path w)) in
  load_attempts (trace (snd (init s w))) =
    load_attempts (trace w) ++ [aiqb_path] /\
  engine_calls (trace (snd (init s w))) =
    engine_calls (trace w) ++
    [AiqInit view null_view null_view 1920 1080 4 nullptr nullptr].
Proof.
  cbv zeta.
  destruct (init_spec s w) as (_ & _ & evs & Htr & Hat & Hec).
  destruct (load_trace AIQBinaryData_new aiqb_path w)
    as (evl & Hl & Hlat & Hlec).
  rewrite Htr, Hl.
  rewrite !load_attempts_app, !engine_calls_app.
  rewrite Hat, Hec, Hlat, Hlec, !app_nil_r. auto.
Qed.

(** [setStatistics] in one equation per component. *)
Lemma setStatistics_spec s (frame : Z) (stats : S3A) w :
  let answer :=
    ia_aiq_statistics_set (aiq_ s) value_initialized (engine w) in
  fst (setStatistics s frame stats w) = 0 /\
  engine (snd (setStatistics s frame stats w)) = snd answer /\
  trace (snd (setStatistics s frame stats w)) =
    trace w ++
    [Log Debug "Set Statistitcs";
     AiqStatisticsSet (aiq_ s) value_initialized] ++
    (if fst answer =? 0 then []
     else [Log Error
             ("Failed to set statistics: " ++ ia_err_decode (fst answer));
           Log Error "Not quitting"]).
Proof.
  cbv zeta. unfold setStatistics. unfold_calls. simpl_world.
  destruct (ia_aiq_statistics_set _ _ _) as [err e']. simpl_world.
  destruct (err =? 0); simpl_world;
    repeat rewrite <- app_assoc; cbn [app]; auto.
Qed.

(** C4 (as amended): [setStatistics] returns 0 whatever the engine
    answers; an error code of the engine is logged, with the words "Not
    quitting", and the call after it returns 0 as well.  [run] returns 0
    and leaves the world, the engine included, as it was. *)
Theorem engine_error_is_logged_not_returned
    s (frame : Z) (stats : S3A) (config : C) (params : B) w :
  let err :=
    fst (ia_aiq_statistics_set (aiq_ s) value_initialized (engine w)) in
  let w' := snd (setStatistics s frame stats w) in
  fst (setStatistics s frame stats w) = 0 /\
  (err <> 0 ->
   trace w' =
     trace w ++
     [Log Debug "Set Statistitcs";
      AiqStatisticsSet (aiq_ s) value_initialized;
      Log Error ("Failed to set statistics: " ++ ia_err_decode err);
      Log Error "Not quitting"]) /\
  (forall (frame' : Z) (stats' : S3A),
     fst (setStatistics s frame' stats' w') = 0) /\
  fst (fst (run s frame config params w)) = 0 /\
  snd (run s frame config params w) = w.
Proof.
  cbv zeta.
  destruct (setStatistics_spec s frame stats w) as (Hret & _ & Htr).
  repeat split; auto.
  - intros Herr. rewrite Htr. apply Z.eqb_neq in Herr. now rewrite Herr.
  - intros frame' stats'. apply setStatistics_spec.
Qed.

(** C5 (as amended): [setStatistics], [run] and [configure] return 0 for
    every session, whatever handle it holds; [setStatistics] hands that
    handle to the engine, and the destructor hands it to
    [ia_aiq_deinit], null or not, and would do so again if its body ran a
    second time on the object. *)
Theorem session_calls_do_not_check_the_handle
    s (frame : Z) (stats : S3A) (config : C) (params : B) w :
  fst (setStatistics s frame stats w) = 0 /\
  engine_calls (trace (snd (setStatistics s frame stats w))) =
    engine_calls (trace w) ++ [AiqStatisticsSet (aiq_ s) value_initialized] /\
  fst (fst (run s frame config params w)) = 0 /\
  fst (configure s w) = 0 /\
  engine_calls (trace (snd (AIQ_destructor s w))) =
    engine_calls (trace w) ++ [AiqDeinit (aiq_ s)] /\
  engine (snd (AIQ_destructor s w)) = ia_aiq_deinit (aiq_ s) (engine w) /\
  engine_calls (trace (snd (AIQ_destructor s (snd (AIQ_destructor s w))))) =
    engine_calls (trace w) ++ [AiqDeinit (aiq_ s); AiqDeinit (aiq_ s)].
Proof.
  destruct (setStatistics_spec s frame stats w) as (Hret & _ & Htr).
  cbv zeta in Htr.
  repeat split; auto.
  - rewrite Htr, !engine_calls_app.
    destruct (_ =? 0); cbn [engine_calls app]; now rewrite ?app_nil_r.
  - unfold AIQ_destructor. unfold_calls. simpl_world.
    rewrite !engine_calls_app. cbn [engine_calls]. now rewrite app_nil_r.
  - unfold AIQ_destructor. unfold_calls. simpl_world.
    rewrite !engine_calls_app. cbn [engine_calls].
    now rewrite !app_nil_r, <- app_assoc.
Qed.

(** C6: what [setStatistics] submits to the engine is the value-initialised
    parameter structure; the call, its result and the world after it are
    the same for any two frame numbers and any two statistics buffers. *)
Theorem setStatistics_ignores_stats
    s (frame1 frame2 : Z) (stats1 stats2 : S3A) w :
  setStatistics s frame1 stats1 w = setStatistics s frame2 stats2 w /\
  engine_calls (trace (snd (setStatistics s frame1 stats1 w))) =
    engine_calls (trace w) ++ [AiqStatisticsSet (aiq_ s) value_initialized].
Proof.
  split; [reflexivity |].
  destruct (setStatistics_spec s frame1 stats1 w) as (_ & _ & Htr).
  cbv zeta in Htr. rewrite Htr, !engine_calls_app.
  destruct (_ =? 0); cbn [engine_calls app]; now rewrite ?app_nil_r.
Qed.

(** C8: [run] makes no call to the engine and leaves the world as it
    was; the bytes it leaves in the parameter buffer are those the encoder
    gives for the contents of its local [config], which nothing in [run]
    sets.  Two calls on the same session, frame, buffer and world whose
    locals hold contents that the encoder tells apart therefore leave
    different bytes: the buffer is not determined by the engine's state
    and decision. *)
Theorem run_bytes_follow_the_local
    s (frame : Z) (config1 config2 : C) (params : B) w :
  translation config1 <> translation config2 ->
  snd (run s frame config1 params w) = w /\
  snd (run s frame config2 params w) = w /\
  fst (fst (run s frame config1 params w)) = 0 /\
  snd (fst (run s frame config1 params w)) = translation config1 /\
  snd (fst (run s frame config1 params w)) <>
    snd (fst (run s frame config2 params w)).
Proof.
  intros Hdiffer. unfold run, ParameterEncoder_encode, ret.
  cbn [fst snd]. repeat split. exact Hdiffer.
Qed.

End Properties.

(** * The wrapper on the stub platform *)

Local Open Scope string_scope.

(** [load] on a missing calibration file and [init] over it. *)
Lemma missing_calibration_is_not_fatal_witness :
  file_exists (fs Stub.w0 aiqb_path) = false /\
  retcode (load AIQBinaryData_new aiqb_path Stub.w0) = - ENOENT /\
  retcode (init {| aiq_ := 0 |} Stub.w0) = 0 /\
  aiq_ (object_after (init {| aiq_ := 0 |} Stub.w0)) <> nullptr.
Proof.
  assert (Hex : file_exists (fs Stub.w0 aiqb_path) = false) by reflexivity.
  destruct (missing_calibration_is_not_fatal
              AIQBinaryData_new {| aiq_ := 0 |} aiqb_path Stub.w0 Hex)
    as [Hload Hinit].
  split; [exact Hex |]. split; [exact Hload |].
  apply Hinit; [reflexivity | vm_compute; discriminate].
Defined.

(** [init] with an engine that refuses to create a handle. *)
Lemma engine_creation_failure_is_fatal_witness :
  retcode (init {| aiq_ := 99 |} (Stub.world Stub.files 0 [])) = - ENODATA /\
  retcode (init {| aiq_ := 99 |} (Stub.world Stub.files 0 [])) <> 0 /\
  aiq_ (object_after (init {| aiq_ := 99 |} (Stub.world Stub.files 0 [])))
    = nullptr.
Proof.
  apply (engine_creation_failure_is_fatal
           {| aiq_ := 99 |} (Stub.world Stub.files 0 [])).
  reflexivity.
Defined.

(** One file for each line of the table of error codes. *)
Lemma load_error_codes_witness :
  retcode (load AIQBinaryData_new "nowhere" Stub.w0) = - ENOENT /\
  retcode (load AIQBinaryData_new "locked" Stub.w0) = - EINVAL /\
  retcode (load AIQBinaryData_new "pipe" Stub.w0) = - ENODATA /\
  retcode (load AIQBinaryData_new "short" Stub.w0) = - EINVAL /\
  retcode (load AIQBinaryData_new "four" Stub.w0) = 0.
Proof.
  pose proof (load_error_codes AIQBinaryData_new "nowhere" Stub.w0) as Ha.
  pose proof (load_error_codes AIQBinaryData_new "locked" Stub.w0) as Hb.
  pose proof (load_error_codes AIQBinaryData_new "pipe" Stub.w0) as Hc.
  pose proof (load_error_codes AIQBinaryData_new "short" Stub.w0) as Hd.
  pose proof (load_error_codes AIQBinaryData_new "four" Stub.w0) as He.
  cbv zeta in Ha, Hb, Hc, Hd, He.
  destruct Ha as (Ha & _).
  destruct Hb as (_ & Hb & _).
  destruct Hc as (_ & _ & Hc & _).
  destruct Hd as (_ & _ & _ & Hd & _).
  destruct He as (_ & _ & _ & _ & He & _).
  split; [| split; [| split; [| split]]].
  - apply Ha. reflexivity.
  - apply Hb; reflexivity.
  - apply Hc; reflexivity.
  - apply Hd; [reflexivity | reflexivity | vm_compute; discriminate
              | vm_compute; discriminate].
  - apply He; [reflexivity | reflexivity | vm_compute; discriminate
              | reflexivity].
Defined.

(** C3, the claim as stated fails: a file that cannot be opened and a file
    whose read comes up short are two of the four conditions, and [load]
    answers both with the same code. *)
Lemma access_denied_and_truncated_share_a_code :
  file_exists (fs Stub.w0 "locked") = true /\
  file_open (fs Stub.w0 "locked") = false /\
  file_open (fs Stub.w0 "short") = true /\
  file_size (fs Stub.w0 "short") = 4 /\
  fst (file_read (fs Stub.w0 "short") 4) = 2 /\
  retcode (load AIQBinaryData_new "locked" Stub.w0) =
    retcode (load AIQBinaryData_new "short" Stub.w0).
Proof. repeat (split; [reflexivity |]). reflexivity. Qed.

(** A load that fails on a loader that was loaded before. *)
Lemma failed_load_keeps_view_witness :
  let self := object_after Stub.loaded_one in
  let w := world_after Stub.loaded_one in
  retcode (load self "short" w) = - EINVAL /\
  AIQBinaryData_data (object_after (load self "short" w)) =
    {| data := 4096; size := 1 |}.
Proof.
  cbv zeta. split; [reflexivity |].
  transitivity (AIQBinaryData_data (object_after Stub.loaded_one));
    [| reflexivity].
  apply (failed_load_keeps_view
           (object_after Stub.loaded_one) "short"
           (world_after Stub.loaded_one)).
  vm_compute. discriminate.
Defined.

(** A load of the four-byte file. *)
Lemma successful_load_view_witness :
  let self' := object_after (load AIQBinaryData_new "four" Stub.w0) in
  size (AIQBinaryData_data self') = 4 /\
  view_of_buffer self'.
Proof.
  cbv zeta.
  destruct (successful_load_view AIQBinaryData_new "four" Stub.w0)
    as (_ & Hsize & _ & Hview).
  - reflexivity.
  - split; [| exact Hview].
    apply Hsize. vm_compute. split; discriminate.
Defined.

(** C7, the claim as stated fails: the pointer of the view does not stay
    put for the lifetime of the loader.  After a load of the one-byte file,
    a second load on the same loader has to grow the buffer, which moves
    it: when the second load succeeds the view follows the buffer to its
    new address, and when it fails the view keeps the old address, which is
    no longer that of the buffer the loader owns. *)
Lemma reload_moves_the_buffer :
  let first := Stub.loaded_one in
  let again := load (object_after first) "four" (world_after first) in
  let failed := load (object_after first) "short" (world_after first) in
  retcode first = 0 /\
  retcode again = 0 /\
  data (AIQBinaryData_data (object_after again)) <>
    data (AIQBinaryData_data (object_after first)) /\
  retcode failed = - EINVAL /\
  data (AIQBinaryData_data (object_after failed)) =
    data (AIQBinaryData_data (object_after first)) /\
  data (AIQBinaryData_data (object_after failed)) <>
    vector_data (data_ (object_after failed)).
Proof. vm_compute. repeat split; discriminate. Qed.

(** A statistics call that the engine answers with error 1, followed by
    one that it answers with 0. *)
Lemma engine_error_is_logged_not_returned_witness :
  let w := Stub.world Stub.files 7 [1] in
  let s := {| aiq_ := 7 |} in
  fst (setStatistics s 5 [x01] w) = 0 /\
  trace (snd (setStatistics s 5 [x01] w)) =
    [Log Debug "Set Statistitcs";
     AiqStatisticsSet 7 0;
     Log Error "Failed to set statistics: ia_err";
     Log Error "Not quitting"] /\
  fst (setStatistics s 6 [x02] (snd (setStatistics s 5 [x01] w))) = 0.
Proof.
  cbv zeta.
  destruct (engine_error_is_logged_not_returned
              (S3A := list byte) {| aiq_ := 7 |} 5 [x01] 3 []
              (Stub.world Stub.files 7 [1]))
    as (Hret & Hlog & Hnext & _).
  split; [exact Hret |]. split.
  - apply Hlog. vm_compute. discriminate.
  - apply Hnext.
Defined.

(** C4, the claim as stated fails: the engine answers the statistics call
    with error code 1, and [setStatistics] returns 0, which is the code of
    success. *)
Lemma engine_error_returns_success :
  let w := Stub.world Stub.files 7 [1] in
  fst (ia_aiq_statistics_set 7 value_initialized (engine w)) = 1 /\
  fst (setStatistics {| aiq_ := 7 |} 5 [x01] w) = 0.
Proof. cbv zeta. split; reflexivity. Qed.

(** C5, the claim as stated fails.  After an [init] that failed the session
    holds the null handle; [setStatistics], [run] and [configure] return 0
    all the same, [setStatistics] calls the engine with the null handle,
    and the destructor calls [ia_aiq_deinit] with it; the destructor's body
    run a second time calls [ia_aiq_deinit] a second time. *)
Lemma calls_after_failed_init :
  let r := init {| aiq_ := 0 |} (Stub.world Stub.files 0 []) in
  let s := object_after r in
  let w := world_after r in
  let create := AiqInit null_view null_view null_view 1920 1080 4 0 0 in
  retcode r = - ENODATA /\
  aiq_ s = nullptr /\
  fst (setStatistics s 1 [x01] w) = 0 /\
  engine_calls (trace (snd (setStatistics s 1 [x01] w))) =
    [create; AiqStatisticsSet nullptr 0] /\
  fst (fst (run s 1 3 [] w)) = 0 /\
  fst (configure s w) = 0 /\
  engine_calls (trace (snd (AIQ_destructor s w))) =
    [create; AiqDeinit nullptr] /\
  engine_calls
    (trace (snd (AIQ_destructor s (snd (AIQ_destructor s w))))) =
    [create; AiqDeinit nullptr; AiqDeinit nullptr].
Proof. cbv zeta. repeat (split; [reflexivity |]). reflexivity. Qed.

(** C6 on two statistics buffers that differ: the engine is handed the same
    structure, all zeros, for both. *)
Lemma setStatistics_same_submission :
  let s := {| aiq_ := 7 |} in
  engine_calls (trace (snd (setStatistics s 5 [x01; x02] Stub.w0))) =
    [AiqStatisticsSet 7 0] /\
  engine_calls (trace (snd (setStatistics s 5 [xff; xfe] Stub.w0))) =
    [AiqStatisticsSet 7 0].
Proof. cbv zeta. split; reflexivity. Qed.

(** Two calls of [run] on the same session, frame, buffer and world, with
    the local holding 0 in one and 3 in the other. *)
Lemma run_bytes_follow_the_local_witness :
  let s := {| aiq_ := 7 |} in
  snd (fst (run s 5 0 [] Stub.w0)) = [] /\
  snd (fst (run s 5 3 [] Stub.w0)) = [x01; x01; x01] /\
  snd (fst (run s 5 0 [] Stub.w0)) <> snd (fst (run s 5 3 [] Stub.w0)) /\
  snd (run s 5 0 [] Stub.w0) = Stub.w0.
Proof.
  cbv zeta.
  destruct (run_bytes_follow_the_local
              {| aiq_ := 7 |} 5 0 3 ([] : list byte) Stub.w0)
    as (Hworld & _ & _ & _ & Hdiffer).
  - vm_compute. discriminate.
  - split; [reflexivity |]. split; [reflexivity |].
    split; [exact Hdiffer | exact Hworld].
Defined.

(** C9, the claim as stated fails: in a file system where every name is a
    readable file, [init] attempts one load, not three, and the engine is
    handed null views for the non-volatile-memory blob and the auxiliary
    blob. *)
Lemma init_attempts_one_load :
  let r := init {| aiq_ := 0 |} (Stub.world Stub.all_present 7 []) in
  load_attempts (trace (snd r)) = [aiqb_path] /\
  engine_calls (trace (snd r)) =
    [AiqInit {| data := 4096; size := 1 |} null_view null_view
       1920 1080 4 nullptr nullptr].
Proof. cbv zeta. split; reflexivity. Qed.


(** * Further properties of the loader and of the session *)

Section FurtherProperties.

Local Open Scope list_scope.
Local Open Scope Z_scope.

Context {H E P C B S3A : Type}.
Context {alloc : Allocator H} {eng : Engine E P}
  {enc : ParameterEncoder C B}.

Implicit Types (w : @World H E P) (self : AIQBinaryData) (s : AIQ).
Implicit Types (filename : string).

Ltac unfold_calls :=
  unfold File_exists, File_open, File_size, File_read, vector_resize,
    call_ia_aiq_init, call_ia_aiq_statistics_set, call_ia_aiq_deinit,
    LOG, emit, bind, ret, retcode, object_after, world_after in *.

Ltac simpl_world := cbn [fs heap engine trace fst snd negb] in *.

Ltac load_paths :=
  unfold load; unfold_calls; simpl_world;
  destruct (file_exists _) eqn:?; simpl_world;
  [ destruct (file_open _) eqn:?; simpl_world;
    [ destruct (_ <? 0) eqn:?; simpl_world;
      [ | unfold vector_resize;
          destruct (_ <=? _)%nat eqn:?;
          [ | destruct (allocate _ _) as [? ?] eqn:? ];
          simpl_world;
          destruct (file_read _ _) as [? ?] eqn:?; simpl_world;
          destruct (to_int _ =? _) eqn:?; simpl_world ]
    | ]
  | ].

Lemma file_events_app (tr1 tr2 : list (@Event P)) :
  file_events (tr1 ++ tr2) = file_events tr1 ++ file_events tr2.
Proof.
  induction tr1 as [| e tr1 IH]; [reflexivity |].
  destruct e; cbn [app file_events]; rewrite IH; reflexivity.
Qed.

Lemma log_entries_app (tr1 tr2 : list (@Event P)) :
  log_entries (tr1 ++ tr2) = log_entries tr1 ++ log_entries tr2.
Proof.
  induction tr1 as [| e tr1 IH]; [reflexivity |].
  destruct e; cbn [app log_entries]; rewrite IH; reflexivity.
Qed.

(** A store that covers the whole span replaces all of it. *)
Lemma span_store_full (bytes l : list byte) :
  (List.length l <= List.length bytes)%nat ->
  span_store bytes l = firstn (List.length l) bytes.
Proof.
  intros Hlen. unfold span_store. cbv zeta.
  rewrite length_firstn, Nat.min_l by lia.
  rewrite skipn_all. apply app_nil_r.
Qed.

(** ** What [load] does to the files, the log and the loader *)

(** What [load] adds to the log: one entry, which ends in the name of the
    file, of severity [Info] when the code is 0 and [Error] otherwise. *)
Lemma load_log self filename w :
  exists msg,
    log_entries (trace (snd (load self filename w))) =
      log_entries (trace w) ++
      [(if retcode (load self filename w) =? 0 then Info else Error,
        (msg ++ filename)%string)].
Proof.
  load_paths; repeat rewrite <- app_assoc; cbn [app];
    rewrite log_entries_app; cbn [log_entries];
    eexists; reflexivity.
Qed.

(** X1: [load] asks the file it was given whether it exists, opens it only
    if it does, asks for its size only if it opened, and reads only if the
    size is not negative, into a span of exactly that size; it makes no
    other call on files, none on the engine, and leaves the file system
    and the engine as they were. *)
Theorem load_file_protocol self filename w :
  let f := fs w filename in
  let w' := snd (load self filename w) in
  (exists evs,
     trace w' = trace w ++ evs /\
     engine_calls evs = [] /\
     file_events evs =
       FileExists filename ::
       (if file_exists f then
          FileOpen filename ::
          (if file_open f then
             FileSize filename ::
             (if file_size f <? 0 then []
              else [FileRead filename (Z.to_nat (file_size f))])
           else [])
        else [])) /\
  fs w' = fs w /\ engine w' = engine w.
Proof.
  cbv zeta.
  load_paths; cbn [v_elems]; rewrite ?resized_length;
    repeat rewrite <- app_assoc; cbn [app];
    (split; [| split; reflexivity]);
    eexists; (split; [reflexivity | split; reflexivity]).
Qed.

(** X2: every call to [load] writes exactly one entry to the log, which
    ends in the name of the file: an [Error] entry when the call fails, an
    [Info] entry when it succeeds. *)
Theorem load_logs_once self filename w :
  let r := load self filename w in
  exists msg,
    log_entries (trace (snd r)) =
      log_entries (trace w) ++
      [(if retcode r =? 0 then Info else Error, (msg ++ filename)%string)].
Proof. cbv zeta. apply load_log. Qed.

(** X3: [load] returns 0 only for a file that exists, opens, has a size
    from 0 to 2^31 - 1 and whose read count, as an [int], equals that
    size: a call on a file of 2^31 bytes or more never returns 0, because
    the [int] that holds the read count cannot equal such a size. *)
Theorem load_success_needs_small_file self filename w :
  let f := fs w filename in
  retcode (load self filename w) = 0 ->
  file_exists f = true /\
  file_open f = true /\
  0 <= file_size f < 2 ^ 31 /\
  to_int (fst (file_read f (Z.to_nat (file_size f)))) = file_size f.
Proof.
  cbv zeta. intros Hok.
  destruct (load_case_of (fs w filename)) as [Hex | Hex Hop | Hex Hop Hsz
    | Hex Hop Hsz Hne | Hex Hop Hsz Heq]; unfold retcode in Hok.
  - rewrite (proj1 (load_not_there self filename w Hex)) in Hok.
    cbn in Hok. discriminate.
  - rewrite (load_not_opened self filename w Hex Hop) in Hok.
    cbn in Hok. discriminate.
  - rewrite (load_no_size self filename w Hex Hop Hsz) in Hok.
    cbn in Hok. discriminate.
  - rewrite (load_read self filename w Hex Hop Hsz) in Hok.
    apply Z.eqb_neq in Hne. rewrite Hne in Hok. cbn in Hok. discriminate.
  - pose proof (to_int_range
                  (fst (file_read (fs w filename)
                          (Z.to_nat (file_size (fs w filename)))))) as Hrange.
    repeat split; auto; lia.
Qed.

(** X4: when the file is missing, cannot be opened or has no size, [load]
    returns before it touches the buffer: the whole loader and the heap are
    as they were. *)
Theorem load_early_failure_changes_nothing self filename w :
  file_exists (fs w filename) = false \/
  file_open (fs w filename) = false \/
  file_size (fs w filename) < 0 ->
  retcode (load self filename w) <> 0 /\
  object_after (load self filename w) = self /\
  heap (snd (load self filename w)) = heap w.
Proof.
  pose proof errno_distinct as Herr.
  intros Hearly.
  load_paths; try (repeat split; (reflexivity || lia));
    exfalso; destruct Hearly as [Hc | [Hc | Hc]];
    try congruence;
    match goal with
    | Hs : (_ <? 0) = false |- _ => apply Z.ltb_ge in Hs; lia
    end.
Qed.

(** X5: after a successful [load] for which [File::read] delivered at
    least as many bytes as the size of the file, the buffer holds those
    bytes and nothing else: nothing of what the buffer held before the call
    is left in it. *)
Theorem load_buffer_holds_file self filename w :
  let f := fs w filename in
  let n := Z.to_nat (file_size f) in
  let bytes := snd (file_read f n) in
  retcode (load self filename w) = 0 ->
  (n <= List.length bytes)%nat ->
  v_elems (data_ (object_after (load self filename w))) = firstn n bytes.
Proof.
  cbv zeta. intros Hok Hlen.
  destruct (load_case_of (fs w filename)) as [Hex | Hex Hop | Hex Hop Hsz
    | Hex Hop Hsz Hne | Hex Hop Hsz Heq]; unfold retcode, object_after in *.
  - rewrite (proj1 (load_not_there self filename w Hex)) in Hok.
    cbn in Hok. discriminate.
  - rewrite (load_not_opened self filename w Hex Hop) in Hok.
    cbn in Hok. discriminate.
  - rewrite (load_no_size self filename w Hex Hop Hsz) in Hok.
    cbn in Hok. discriminate.
  - rewrite (load_read self filename w Hex Hop Hsz) in Hok.
    apply Z.eqb_neq in Hne. rewrite Hne in Hok. cbn in Hok. discriminate.
  - rewrite (load_read self filename w Hex Hop Hsz).
    apply Z.eqb_eq in Heq. rewrite Heq.
    cbn [fst snd data_ v_elems].
    pose proof (vector_resize_spec (data_ self)
                  (Z.to_nat (file_size (fs w filename))) w) as Hrs.
    cbv zeta in Hrs. destruct Hrs as (Hn & _).
    rewrite span_store_full by (rewrite Hn; exact Hlen).
    now rewrite Hn.
Qed.

(** X6: a file of size 0 whose read returns 0 loads with success on any
    loader: the view gets size 0 and the address the buffer already had,
    the buffer is emptied, and nothing is allocated. *)
Theorem load_empty_file self filename w :
  file_exists (fs w filename) = true ->
  file_open (fs w filename) = true ->
  file_size (fs w filename) = 0 ->
  fst (file_read (fs w filename) 0) = 0 ->
  let r := load self filename w in
  retcode r = 0 /\
  AIQBinaryData_data (object_after r) =
    {| data := vector_data (data_ self); size := 0 |} /\
  v_elems (data_ (object_after r)) = [] /\
  heap (snd r) = heap w.
Proof.
  intros Hex Hop Hsz Hread. cbv zeta.
  unfold load. unfold_calls. simpl_world.
  rewrite Hex. simpl_world. rewrite Hop. simpl_world.
  rewrite Hsz. cbn [Z.ltb Z.compare Z.to_nat Nat.leb].
  simpl_world. cbn [v_elems resized firstn repeat Nat.sub app List.length].
  destruct (file_read _ _) as [r bytes] eqn:Hfr. simpl_world.
  cbn [fst] in Hread. subst r. cbn [to_int].
  change (to_int 0 =? 0) with true. simpl_world.
  unfold AIQBinaryData_data, vector_data.
  cbn [iaBinaryData_ data_ v_base v_elems].
  repeat split.
Qed.

(** X7: past the size check [load] always resizes the buffer to the size
    of the file, whether the read then succeeds or not.  A file that fits
    the capacity leaves the buffer where it is and the heap untouched; a
    larger one moves the buffer to a block obtained from the allocator. *)
Theorem load_buffer_placement self filename w :
  file_exists (fs w filename) = true ->
  file_open (fs w filename) = true ->
  0 <= file_size (fs w filename) ->
  let n := Z.to_nat (file_size (fs w filename)) in
  let cap := v_cap (data_ self) in
  let r := load self filename w in
  let block := allocate (growth cap n) (heap w) in
  List.length (v_elems (data_ (object_after r))) = n /\
  ((n <= cap)%nat ->
   vector_data (data_ (object_after r)) = vector_data (data_ self) /\
   v_cap (data_ (object_after r)) = cap /\
   heap (snd r) = heap w) /\
  ((cap < n)%nat ->
   vector_data (data_ (object_after r)) = fst block /\
   v_cap (data_ (object_after r)) = growth cap n /\
   heap (snd r) = snd block).
Proof.
  intros Hex Hop Hsz. cbv zeta.
  unfold load. unfold_calls. simpl_world.
  rewrite Hex. simpl_world. rewrite Hop. simpl_world.
  apply Z.ltb_ge in Hsz. rewrite Hsz.
  destruct (Nat.leb_spec (Z.to_nat (file_size (fs w filename)))
              (v_cap (data_ self))) as [Hfit | Hgrow];
    [| destruct (allocate _ _) as [p h']];
    simpl_world;
    destruct (file_read _ _) as [r bytes]; simpl_world;
    destruct (to_int r =? _); simpl_world;
    unfold with_data_, vector_data;
    cbn [data_ v_elems v_base v_cap fst snd];
    rewrite span_store_length, resized_length;
    (split; [reflexivity | split; intros Hc; [| ]]);
    try lia; repeat split.
Qed.

(** ** What [init] and the destructor do to the engine *)

Lemma init_engine_calls s w :
  engine_calls (trace (snd (init s w))) =
    engine_calls (trace w) ++
    [AiqInit (primary_view w) null_view null_view 1920 1080 4
       nullptr nullptr].
Proof.
  destruct (init_spec s w) as (_ & _ & evs & Htr & _ & Hec).
  destruct (load_trace AIQBinaryData_new aiqb_path w)
    as (evl & Hl & _ & Hlec).
  rewrite Htr, Hl, !engine_calls_app, Hec, Hlec, app_nil_r. reflexivity.
Qed.

Lemma destructor_spec s w :
  engine_calls (trace (snd (AIQ_destructor s w))) =
    engine_calls (trace w) ++ [AiqDeinit (aiq_ s)] /\
  engine (snd (AIQ_destructor s w)) = ia_aiq_deinit (aiq_ s) (engine w).
Proof.
  unfold AIQ_destructor. unfold_calls. simpl_world.
  rewrite !engine_calls_app. cbn [engine_calls].
  now rewrite app_nil_r.
Qed.

Lemma setStatistics_engine_calls s (frame : Z) (stats : S3A) w :
  engine_calls (trace (snd (setStatistics s frame stats w))) =
    engine_calls (trace w) ++ [AiqStatisticsSet (aiq_ s) value_initialized].
Proof.
  destruct (setStatistics_spec s frame stats w) as (_ & _ & Htr).
  cbv zeta in Htr. rewrite Htr, !engine_calls_app.
  destruct (_ =? 0); cbn [engine_calls app]; now rewrite ?app_nil_r.
Qed.

(** X8: [init] returns 0 or [-ENODATA] and nothing else, never the code of
    the load; it returns 0 exactly when the handle it stores, which is the
    one the engine returned, is not null; and neither depends on the handle
    the session held before. *)
Theorem init_code_tells_handle s w :
  let r := init s w in
  ((retcode r = 0 /\ aiq_ (object_after r) <> nullptr) \/
   (retcode r = - ENODATA /\ aiq_ (object_after r) = nullptr)) /\
  aiq_ (object_after r) =
    fst (ia_aiq_init (primary_view w) null_view null_view 1920 1080 4
           nullptr nullptr (engine w)) /\
  forall s', init s' w = r.
Proof.
  cbv zeta.
  destruct (init_spec s w) as (Hinit & _). cbv zeta in Hinit.
  unfold primary_view, retcode, object_after. rewrite Hinit.
  cbn [fst snd aiq_].
  split; [| split; reflexivity].
  unfold object_after.
  destruct (Z.eqb_spec
              (fst (ia_aiq_init
                      (AIQBinaryData_data
                         (snd (fst (load AIQBinaryData_new aiqb_path w))))
                      null_view null_view
                      1920 1080 4 nullptr nullptr (engine w)))
              nullptr) as [Hnull | Hhandle]; auto.
Qed.

(** X9: the log of [init]: the one entry of the load; then "Not quitting"
    exactly when the load failed; then "Failed to initialise aiq library"
    exactly when [init] itself fails. *)
Theorem init_log s w :
  let l := load AIQBinaryData_new aiqb_path w in
  let r := init s w in
  exists msg,
    log_entries (trace (snd r)) =
      log_entries (trace w) ++
      [(if retcode l =? 0 then Info else Error, (msg ++ aiqb_path)%string)] ++
      (if retcode l =? 0 then [] else [(Error, "Not quitting"%string)]) ++
      (if retcode r =? 0 then []
       else [(Error, "Failed to initialise aiq library"%string)]).
Proof.
  cbv zeta.
  destruct (load_log AIQBinaryData_new aiqb_path w) as (msg & Hlog).
  exists msg. revert Hlog.
  unfold init. cbv zeta. unfold bind, retcode.
  destruct (load AIQBinaryData_new aiqb_path w) as [[rc aiqb] w'].
  cbn [fst snd]. intros Hlog.
  pose proof errno_distinct as Herr.
  destruct (rc =? 0); cbn [negb]; unfold_calls; simpl_world;
    destruct (ia_aiq_init _ _ _ _ _ _ _ _ _) as [a e']; simpl_world;
    destruct (a =? nullptr); simpl_world;
    rewrite ?log_entries_app, Hlog; cbn [log_entries fst];
    repeat rewrite <- app_assoc; cbn [app];
    try reflexivity.
Qed.

(** X10: the handle that [init] obtains is the one the session uses from
    then on: the engine sees the creation, then the statistics call and the
    release on the handle the creation returned, and each call finds the
    engine in the state the call before left it in. *)
Theorem session_uses_created_handle s (frame : Z) (stats : S3A) w :
  let created :=
    ia_aiq_init (primary_view w) null_view null_view 1920 1080 4
      nullptr nullptr (engine w) in
  let r1 := init s w in
  let r2 := setStatistics (object_after r1) frame stats (snd r1) in
  let r3 := AIQ_destructor (object_after r1) (snd r2) in
  engine_calls (trace (snd r3)) =
    engine_calls (trace w) ++
    [AiqInit (primary_view w) null_view null_view 1920 1080 4
       nullptr nullptr;
     AiqStatisticsSet (fst created) value_initialized;
     AiqDeinit (fst created)] /\
  engine (snd r3) =
    ia_aiq_deinit (fst created)
      (snd (ia_aiq_statistics_set (fst created) value_initialized
              (snd created))).
Proof.
  cbv zeta.
  destruct (init_spec s w) as (Hinit & Heng & _). cbv zeta in Hinit, Heng.
  assert (Hh : aiq_ (object_after (init s w)) =
               fst (ia_aiq_init (primary_view w) null_view null_view
                      1920 1080 4 nullptr nullptr (engine w)))
    by (unfold object_after at 1; now rewrite Hinit).
  destruct (destructor_spec (object_after (init s w))
              (snd (setStatistics (object_after (init s w)) frame stats
                      (snd (init s w))))) as (Hd & Hde).
  destruct (setStatistics_spec (object_after (init s w)) frame stats
              (snd (init s w))) as (_ & Hse & _). cbv zeta in Hse.
  rewrite Hd, Hde, setStatistics_engine_calls, init_engine_calls.
  rewrite Hse, Heng, Hh, <- !app_assoc. split; reflexivity.
Qed.

(** X11: [init] never releases a handle: a second [init] on a session
    makes a second creation call and replaces the handle, and the
    destructor then releases the handle of the second creation only.
    Whenever the two creations returned different handles, the first
    handle is passed to [ia_aiq_deinit] by none of these calls. *)
Theorem reinit_does_not_release s w :
  let r1 := init s w in
  let r2 := init (object_after r1) (snd r1) in
  let r3 := AIQ_destructor (object_after r2) (snd r2) in
  let calls :=
    [AiqInit (primary_view w) null_view null_view 1920 1080 4
       nullptr nullptr;
     AiqInit (primary_view (snd r1)) null_view null_view 1920 1080 4
       nullptr nullptr;
     AiqDeinit (aiq_ (object_after r2))] in
  engine_calls (trace (snd r3)) = engine_calls (trace w) ++ calls /\
  (aiq_ (object_after r1) <> aiq_ (object_after r2) ->
   ~ In (AiqDeinit (aiq_ (object_after r1))) calls).
Proof.
  cbv zeta. split.
  - rewrite (proj1 (destructor_spec _ _)), !init_engine_calls.
    now rewrite <- !app_assoc.
  - intros Hne [Hin | [Hin | [Hin | []]]]; try discriminate Hin.
    injection Hin as Heq. apply Hne. now rewrite Heq.
Qed.

(** X12: when the calibration file is there, opens, is not empty and reads
    in full, the creation call of [init] receives a primary view with the
    size of the file and the address of the block the loader obtained for
    it from the allocator. *)
Theorem init_hands_over_calibration s w :
  let f := fs w aiqb_path in
  let n := Z.to_nat (file_size f) in
  file_exists f = true ->
  file_open f = true ->
  0 < file_size f ->
  to_int (fst (file_read f n)) = file_size f ->
  engine_calls (trace (snd (init s w))) =
    engine_calls (trace w) ++
    [AiqInit {| data := fst (allocate (growth 0 n) (heap w));
                size := file_size f |}
       null_view null_view 1920 1080 4 nullptr nullptr].
Proof.
  cbv zeta. intros Hex Hop Hsz Hfull.
  rewrite init_engine_calls. do 2 f_equal.
  unfold primary_view, object_after.
  rewrite (load_read AIQBinaryData_new aiqb_path w Hex Hop) by lia.
  apply Z.eqb_eq in Hfull. rewrite Hfull.
  unfold AIQBinaryData_data, vector_data, vector_resize.
  cbn [fst snd iaBinaryData_ data_ v_base v_cap AIQBinaryData_new
       vector_empty].
  destruct (Nat.leb_spec (Z.to_nat (file_size (fs w aiqb_path))) 0)
    as [Hle | Hgt]; [lia |].
  destruct (allocate _ _) as [p h']. reflexivity.
Qed.

End FurtherProperties.

(** * The further properties on the stub platform *)

(** The four-byte file. *)
Lemma load_success_needs_small_file_witness :
  file_exists (fs Stub.w0 "four") = true /\
  file_open (fs Stub.w0 "four") = true /\
  0 <= file_size (fs Stub.w0 "four") < 2 ^ 31 /\
  to_int (fst (file_read (fs Stub.w0 "four")
                 (Z.to_nat (file_size (fs Stub.w0 "four"))))) =
    file_size (fs Stub.w0 "four").
Proof.
  apply (load_success_needs_small_file AIQBinaryData_new "four" Stub.w0).
  reflexivity.
Defined.

(** Two sessions' worth of [init] on an engine that numbers its handles:
    the first creation returns 7, the second 8, and 7 is never released. *)
Lemma reinit_does_not_release_witness :
  let r1 := init {| aiq_ := 0 |} Fresh.w0 in
  let r2 := init (object_after r1) (snd r1) in
  let r3 := AIQ_destructor (object_after r2) (snd r2) in
  aiq_ (object_after r1) = 7 /\
  aiq_ (object_after r2) = 8 /\
  engine_calls (trace (snd r3)) =
    [AiqInit null_view null_view null_view 1920 1080 4 nullptr nullptr;
     AiqInit null_view null_view null_view 1920 1080 4 nullptr nullptr;
     AiqDeinit 8] /\
  ~ In (AiqDeinit 7) (engine_calls (trace (snd r3))).
Proof.
  cbv zeta.
  destruct (reinit_does_not_release {| aiq_ := 0 |} Fresh.w0)
    as (Hcalls & Hnot).
  split; [reflexivity |]. split; [reflexivity |].
  split; [exact Hcalls |].
  rewrite Hcalls. apply Hnot. vm_compute. discriminate.
Defined.

(** A file that cannot be opened, on a loader that holds the one-byte
    file. *)
Lemma load_early_failure_changes_nothing_witness :
  let self := object_after Stub.loaded_one in
  let w := world_after Stub.loaded_one in
  retcode (load self "locked" w) <> 0 /\
  object_after (load self "locked" w) = self /\
  heap (snd (load self "locked" w)) = heap w.
Proof.
  cbv zeta.
  apply (load_early_failure_changes_nothing
           (object_after Stub.loaded_one) "locked"
           (world_after Stub.loaded_one)).
  right. left. reflexivity.
Defined.

(** The four-byte file loaded over the one-byte file: the byte 2a is
    gone. *)
Lemma load_buffer_holds_file_witness :
  let self := object_after Stub.loaded_one in
  let w := world_after Stub.loaded_one in
  v_elems (data_ (object_after (load self "four" w))) =
    [x01; x02; x03; x04].
Proof.
  cbv zeta.
  apply (load_buffer_holds_file
           (object_after Stub.loaded_one) "four"
           (world_after Stub.loaded_one)).
  - reflexivity.
  - vm_compute. repeat constructor.
Defined.

(** The empty file on a new loader: the view is that of a loader that
    never loaded anything. *)
Lemma load_empty_file_witness :
  retcode (load AIQBinaryData_new "empty" Edge.w0) = 0 /\
  AIQBinaryData_data (object_after (load AIQBinaryData_new "empty" Edge.w0))
    = null_view.
Proof.
  destruct (load_empty_file AIQBinaryData_new "empty" Edge.w0)
    as (Hret & Hview & _); try reflexivity.
  split; [exact Hret | exact Hview].
Defined.

(** The four-byte file on a loader whose buffer has capacity 1: the buffer
    moves to the next block of the allocator. *)
Lemma load_buffer_placement_witness :
  let self := object_after Stub.loaded_one in
  let w := world_after Stub.loaded_one in
  vector_data (data_ self) = 4096 /\
  vector_data (data_ (object_after (load self "four" w))) = 4097 /\
  v_cap (data_ (object_after (load self "four" w))) = 4%nat.
Proof.
  cbv zeta. split; [reflexivity |].
  destruct (load_buffer_placement
              (object_after Stub.loaded_one) "four"
              (world_after Stub.loaded_one))
    as (_ & _ & Hmove).
  - reflexivity.
  - reflexivity.
  - vm_compute. discriminate.
  - destruct Hmove as (Hbase & Hcap & _).
    + vm_compute. repeat constructor.
    + split; [exact Hbase | exact Hcap].
Defined.

(** [init] in a file system where the calibration file is a readable
    one-byte file. *)
Lemma init_hands_over_calibration_witness :
  engine_calls
    (trace (snd (init {| aiq_ := 0 |} (Stub.world Stub.all_present 7 [])))) =
    [AiqInit {| data := 4096; size := 1 |} null_view null_view
       1920 1080 4 nullptr nullptr].
Proof.
  exact (init_hands_over_calibration
           {| aiq_ := 0 |} (Stub.world Stub.all_present 7 [])
           eq_refl eq_refl eq_refl eq_refl).
Defined.
